(** * SQLCoder2 on Text Generation Inference: the launcher supervisor

    A shallow embedding of [sql_generation_inference.py]: the prompt
    template and its rendering with [str.format], the readiness-polling
    start-up hook [Model.__enter__], the shutdown hook [Model.__exit__] and
    the two request wrappers [Model.generate] and [Model.generate_stream].

    Python strings are byte strings here ([string] of [ascii]); the effects
    of the program (printing, sockets, the subprocess, the client) are
    recorded as a trace of [event]s, and what the outside world answers is
    read from explicit oracles ([world], [Client.t]). *)

From Stdlib Require Import String Ascii List ZArith Lia Bool Arith.
From Stdlib Require Import DecimalString DecimalPos DecimalZ.
Import ListNotations.

Local Open Scope list_scope.
Local Open Scope string_scope.

(** ** Exceptions and results *)

(** The exception classes the program names or that [str.format] raises;
    every other class is carried opaquely by [OtherError]. *)
Inductive exn : Type :=
| SocketTimeout                      (* socket.timeout *)
| ConnectionRefusedError
| RuntimeError (msg : string)
| KeyError (key : string)
| IndexError
| ValueError (msg : string)
| OtherError (cls : string) (msg : string).

(** The outcome of a call: a value, a raised exception, or [Unmodelled]
    when the call leaves the fragment of Python this development covers
    (a replacement field with a conversion, a format spec, an attribute
    or an index, a field name with a byte outside ASCII or with more than
    nine leading digits). *)
Inductive result (A : Type) : Type :=
| Ok (a : A)
| Raise (e : exn)
| Unmodelled.

Arguments Ok {A} a.
Arguments Raise {A} e.
Arguments Unmodelled {A}.

(** ** Effects *)

Inductive event : Type :=
| EPrint (line : string)
| EPopen (argv : list string)
| ENewClient (base_url : string) (timeout : Z)
| EConnect (host : string) (port : Z) (timeout : Z)
| EClose
| EPoll
| ESleep (seconds : Z)
| ETerminate
| EClientGenerate (prompt : string) (max_new_tokens : Z)
| EClientGenerateStream (prompt : string) (max_new_tokens : Z)
| EYield (item : string).

Definition trace : Type := list event.

(** A computation: the events it performed, in order, and how it ended. *)
Definition M (A : Type) : Type := (trace * result A)%type.

Definition ret {A} (a : A) : M A := ([], Ok a).
Definition raise {A} (e : exn) : M A := ([], Raise e).
Definition emit (ev : event) : M unit := ([ev], Ok tt).
Definition print (line : string) : M unit := emit (EPrint line).
Definition lift {A} (r : result A) : M A := ([], r).

Definition bind {A B} (m : M A) (k : A -> M B) : M B :=
  match m with
  | (t, Ok a) => let '(t', r) := k a in ((t ++ t')%list, r)
  | (t, Raise e) => (t, Raise e)
  | (t, Unmodelled) => (t, Unmodelled)
  end.

Declare Scope py_scope.
Delimit Scope py_scope with py.
Notation "x <- m ;; k" := (bind m (fun x => k))
  (at level 61, m at next level, right associativity) : py_scope.
Notation "m ;; k" := (bind m (fun _ => k))
  (at level 61, right associativity) : py_scope.

(** ** [str.format] with keyword arguments that are strings *)

Definition kwargs : Type := list (string * string).

Fixpoint lookup (name : string) (kw : kwargs) : option string :=
  match kw with
  | [] => None
  | (k, v) :: kw' => if String.eqb k name then Some v else lookup name kw'
  end.

Definition is_digit (c : ascii) : bool :=
  let n := nat_of_ascii c in (48 <=? n)%nat && (n <=? 57)%nat.

Fixpoint all_digits (s : string) : bool :=
  match s with
  | EmptyString => true
  | String c s' => is_digit c && all_digits s'
  end.

(** Does a character of a replacement field leave the modelled fragment
    (conversion [!], format spec [:], attribute [.], index [[]])? *)
Definition beyond_fragment (c : ascii) : bool :=
  match c with
  | "!" | ":" | "." | "[" | "]" => true
  | _ => false
  end%char.

Fixpoint has_beyond_fragment (s : string) : bool :=
  match s with
  | EmptyString => false
  | String c s' => beyond_fragment c || has_beyond_fragment s'
  end.

Definition is_ascii (c : ascii) : bool := (nat_of_ascii c <? 128)%nat.

Fixpoint all_ascii (s : string) : bool :=
  match s with
  | EmptyString => true
  | String c s' => is_ascii c && all_ascii s'
  end.

(** How many digits a name begins with. *)
Fixpoint leading_digits (s : string) : nat :=
  match s with
  | EmptyString => 0
  | String c s' => if is_digit c then S (leading_digits s') else 0
  end.

(** The value of the replacement field [{name}]. [str.format] reads the
    digits a name begins with as a number and raises [ValueError] when
    that number outgrows the platform's index type, and it reads any
    Unicode decimal digit as a digit: a name with a byte outside ASCII or
    with more than nine leading digits is left out of the fragment. Of
    the names kept, an empty or all-digit one is positional, and [format]
    is called with no positional argument; any other is looked up among
    the keywords. *)
Definition field_value (kw : kwargs) (name : string) : result string :=
  if has_beyond_fragment name || negb (all_ascii name) then Unmodelled
  else if (9 <? leading_digits name)%nat then Unmodelled
  else if all_digits name then
    Raise IndexError
  else match lookup name kw with
       | Some v => Ok v
       | None => Raise (KeyError name)
       end.

Definition prepend (pre : string) (r : result string) : result string :=
  match r with
  | Ok s => Ok (pre ++ s)
  | Raise e => Raise e
  | Unmodelled => Unmodelled
  end.

(** One left-to-right pass over the format string. [field] is [None] in
    literal text and [Some name] inside a replacement field whose name so
    far is [name]. *)
Fixpoint format_from (kw : kwargs) (field : option string) (s : string)
  : result string :=
  match field with
  | None =>
      match s with
      | EmptyString => Ok ""
      | String "{" EmptyString =>
          Raise (ValueError "Single '{' encountered in format string")
      | String "{" (String "{" rest) => prepend "{" (format_from kw None rest)
      | String "{" rest => format_from kw (Some "") rest
      | String "}" (String "}" rest) => prepend "}" (format_from kw None rest)
      | String "}" _ =>
          Raise (ValueError "Single '}' encountered in format string")
      | String c rest => prepend (String c "") (format_from kw None rest)
      end
  | Some name =>
      match s with
      | EmptyString =>
          if has_beyond_fragment name then Unmodelled
          else Raise (ValueError "expected '}' before end of string")
      | String "}" rest =>
          match field_value kw name with
          | Ok v => prepend v (format_from kw None rest)
          | Raise e => Raise e
          | Unmodelled => Unmodelled
          end
      | String "{" _ => Unmodelled
      | String c rest => format_from kw (Some (name ++ String c "")) rest
      end
  end.

Definition str_format (template : string) (kw : kwargs) : result string :=
  format_from kw None template.

(** Python's [str(n)] for an integer, as an f-string renders it. *)
Definition str_of_int (n : Z) : string := NilZero.string_of_int (Z.to_int n).

(** ** Module constants *)

Definition MODEL_ID : string := "defog/sqlcoder2".
Definition REVISION : string := "4ccba9158b67de83b070a4eb2fadaeb58ab2cd14".
Definition LAUNCH_FLAGS : list string :=
  ["--model-id"; MODEL_ID; "--port"; "8000"; "--revision"; REVISION].

Definition PROMPT_TEMPLATE : string :=
"### Task
Generate a SQL query to answer the following question:
`{user_question}`

### Database Schema
The query will run on a database with the following schema:
{table_metadata_string}

### SQL
Follow these steps to create the SQL Query:
1. Only use the columns and tables present in the database schema
2. Use table aliases to prevent ambiguity when doing joins. For example, `SELECT table1.col1, table2.col1 FROM table1 JOIN table2 ON table1.id = table2.id`.

Given the database schema, here is the SQL query that answers `{user_question}`:
```sql
".

Definition METADATA_DEFAULT : string :=
"CREATE TABLE products (
  product_id INTEGER PRIMARY KEY, -- Unique ID for each product
  name VARCHAR(50), -- Name of the product
  price DECIMAL(10,2), -- Price of each unit of the product
  quantity INTEGER  -- Current quantity in stock
);

CREATE TABLE customers (
   customer_id INTEGER PRIMARY KEY, -- Unique ID for each customer
   name VARCHAR(50), -- Name of the customer
   address VARCHAR(100) -- Mailing address of the customer
);

CREATE TABLE salespeople (
  salesperson_id INTEGER PRIMARY KEY, -- Unique ID for each salesperson 
  name VARCHAR(50), -- Name of the salesperson
  region VARCHAR(50) -- Geographic sales region 
);

CREATE TABLE sales (
  sale_id INTEGER PRIMARY KEY, -- Unique ID for each sale
  product_id INTEGER, -- ID of product sold
  customer_id INTEGER,  -- ID of customer who made purchase
  salesperson_id INTEGER, -- ID of salesperson who made the sale
  sale_date DATE, -- Date the sale occurred 
  quantity INTEGER -- Quantity of product sold
);

CREATE TABLE product_suppliers (
  supplier_id INTEGER PRIMARY KEY, -- Unique ID for each supplier
  product_id INTEGER, -- Product ID supplied
  supply_price DECIMAL(10,2) -- Unit price charged by supplier
);

-- sales.product_id can be joined with products.product_id
-- sales.customer_id can be joined with customers.customer_id 
-- sales.salesperson_id can be joined with salespeople.salesperson_id
-- product_suppliers.product_id can be joined with products.product_id
".

(** ** [generate_prompt] *)

Definition generate_prompt (question prompt_template metadata : string)
  : M string :=
  (print ("generate_prompt() Question: " ++ question) ;;
   prompt <- lift (str_format prompt_template
                     [("user_question", question);
                      ("table_metadata_string", metadata)]) ;;
   print ("generate_prompt() Prompt: " ++ prompt) ;;
   ret prompt)%py.

(** ** The outside world *)

(** What the operating system answers during start-up. Connection attempts
    are numbered from 0 in the order the loop makes them. An attempt may
    raise any exception; the loop tells apart the two classes its [except]
    clause names. Durations are whole seconds, as the source writes them
    ([timeout=1], [timeout=60], [time.sleep(1.0)]). *)
Record world : Type := {
  spawn : option exn;            (* what [subprocess.Popen] raises, if anything *)
  connect : nat -> option exn;   (* [socket.create_connection], attempt [i]:
                                    [None] when the connection is made *)
  retcode : nat -> option Z      (* [launcher.poll()] after attempt [i] failed:
                                    [None] while the process runs *)
}.

Record Token : Type := { text : string; special : bool }.
Record StreamResponse : Type := { token : Token }.
Record Response : Type := { generated_text : string }.

(** The [text_generation.AsyncClient] of the running server: what each of
    its two calls answers for a prompt and a token limit. A stream is the
    responses that arrive, then its end or the exception that breaks it. *)
Module Client.
Record t : Type := {
  generate : string -> Z -> exn + Response;
  generate_stream : string -> Z -> list StreamResponse * option exn
}.
End Client.

(** A loop run with bounded patience: it has halted, or it is still going
    round when the fuel is spent. *)
Inductive progress (A : Type) : Type :=
| Halted (r : result A)
| StillPolling.

Arguments Halted {A} r.
Arguments StillPolling {A}.

(** ** The model class *)

Module Model.

(** [except (socket.timeout, ConnectionRefusedError)] *)
Definition caught (e : exn) : bool :=
  match e with
  | SocketTimeout | ConnectionRefusedError => true
  | _ => false
  end.

Definition webserver_ready (w : world) (i : nat) : M bool :=
  (emit (EConnect "127.0.0.1" 8000 1) ;;
   match connect w i with
   | None => emit EClose ;; ret true
   | Some e =>
       if caught e then
         emit EPoll ;;
         match retcode w i with
         | Some n =>
             raise (RuntimeError
                      ("launcher exited unexpectedly with code "
                         ++ str_of_int n))
         | None => ret false
         end
       else raise e
   end)%py.

(** [while not webserver_ready(): time.sleep(1.0)], from attempt [i] on,
    for at most [fuel] turns of the loop. *)
Fixpoint wait_loop (w : world) (fuel i : nat) : trace * progress unit :=
  match fuel with
  | O => ([], StillPolling)
  | S fuel' =>
      match webserver_ready w i with
      | (t, Ok true) => (t, Halted (Ok tt))
      | (t, Ok false) =>
          let '(t', p) := wait_loop w fuel' (S i) in
          ((t ++ ESleep 1 :: t')%list, p)
      | (t, Raise e) => (t, Halted (Raise e))
      | (t, Unmodelled) => (t, Halted Unmodelled)
      end
  end.

Definition __enter__ (w : world) (fuel : nat) : trace * progress unit :=
  let popen := EPopen ("text-generation-launcher" :: LAUNCH_FLAGS) in
  match spawn w with
  | Some e => ([popen], Halted (Raise e))
  | None =>
      let started := [popen; ENewClient "http://127.0.0.1:8000" 60] in
      match wait_loop w fuel 0 with
      | (t, Halted (Ok tt)) =>
          ((started ++ t ++ [EPrint "Webserver ready!"])%list,
           Halted (Ok tt))
      | (t, p) => ((started ++ t)%list, p)
      end
  end.

(** [self.launcher.terminate()]; [terminated] is what the call raises,
    if anything. *)
Definition __exit__ (terminated : option exn) : M unit :=
  (emit ETerminate ;;
   match terminated with
   | Some e => raise e
   | None => ret tt
   end)%py.

Definition client_generate (self : Client.t) (prompt : string)
    (max_new_tokens : Z) : M Response :=
  (emit (EClientGenerate prompt max_new_tokens) ;;
   match Client.generate self prompt max_new_tokens with
   | inl e => raise e
   | inr r => ret r
   end)%py.

Definition generate (self : Client.t) (question metadata : string)
  : M string :=
  (print "Generating..." ;;
   prompt <- generate_prompt question PROMPT_TEMPLATE metadata ;;
   result <- client_generate self prompt 1024 ;;
   print "Generated!" ;;
   print ("Result: " ++ generated_text result) ;;
   ret (generated_text result))%py.

(** The body of the [async for]: one [yield] per response whose token is
    not special. *)
Fixpoint yield_tokens (responses : list StreamResponse) : trace :=
  match responses with
  | [] => []
  | response :: rest =>
      if special (token response) then yield_tokens rest
      else EYield (text (token response)) :: yield_tokens rest
  end.

Definition client_generate_stream (self : Client.t) (prompt : string)
    (max_new_tokens : Z) : M unit :=
  (emit (EClientGenerateStream prompt max_new_tokens) ;;
   let '(responses, broken) :=
     Client.generate_stream self prompt max_new_tokens in
   (yield_tokens responses,
    match broken with
    | Some e => Raise e
    | None => Ok tt
    end))%py.

Definition generate_stream (self : Client.t) (question metadata : string)
  : M unit :=
  (prompt <- generate_prompt question PROMPT_TEMPLATE metadata ;;
   client_generate_stream self prompt 1024)%py.

End Model.

(** ** Reading a trace *)

(** The items a generator handed to its consumer, in order. *)
Fixpoint yielded (t : trace) : list string :=
  match t with
  | [] => []
  | EYield s :: t' => s :: yielded t'
  | _ :: t' => yielded t'
  end.

Definition is_sleep (ev : event) : bool :=
  match ev with ESleep _ => true | _ => false end.

Definition is_connect (ev : event) : bool :=
  match ev with EConnect _ _ _ => true | _ => false end.

(** The calls made on the client, with the prompt and limit of each. *)
Fixpoint client_calls (t : trace) : list (string * Z) :=
  match t with
  | [] => []
  | EClientGenerate p n :: t' => (p, n) :: client_calls t'
  | EClientGenerateStream p n :: t' => (p, n) :: client_calls t'
  | _ :: t' => client_calls t'
  end.

(** [count_substr needle s]: at how many positions of [s] does [needle]
    start? *)
Fixpoint count_substr (needle s : string) : nat :=
  (if String.prefix needle s then 1 else 0)
  + match s with
    | EmptyString => 0
    | String _ s' => count_substr needle s'
    end.

(** ** The literal text of the template

    [PROMPT_TEMPLATE] read as [str.format] reads it: four stretches of
    literal text around three replacement fields, [{user_question}],
    [{table_metadata_string}] and [{user_question}] again. *)

Definition TASK_TEXT : string :=
"### Task
Generate a SQL query to answer the following question:
`".

Definition SCHEMA_TEXT : string :=
"`

### Database Schema
The query will run on a database with the following schema:
".

Definition SQL_TEXT : string :=
"

### SQL
Follow these steps to create the SQL Query:
1. Only use the columns and tables present in the database schema
2. Use table aliases to prevent ambiguity when doing joins. For example, `SELECT table1.col1, table2.col1 FROM table1 JOIN table2 ON table1.id = table2.id`.

Given the database schema, here is the SQL query that answers `".

Definition FENCE_TEXT : string :=
"`:
```sql
".

(** The template with its fields filled in, nothing else changed. *)
Definition filled (question metadata : string) : string :=
  TASK_TEXT ++ question ++ SCHEMA_TEXT ++ metadata ++ SQL_TEXT
    ++ question ++ FENCE_TEXT.


(** ** Vocabulary for the statements *)

(** A brace is what [str.format] reads as markup. *)
Definition brace (c : ascii) : bool :=
  (Ascii.eqb c "{" || Ascii.eqb c "}")%char.

Fixpoint brace_free (s : string) : bool :=
  match s with
  | EmptyString => true
  | String c s' => negb (brace c) && brace_free s'
  end.

(** A token the generator passes on. *)
Definition plain (t : Token) : bool := negb (special t).

(** Attempt [i] ends in the [except] branch with the launcher alive: the
    connection timed out or was refused, and [poll] reports no exit. *)
Definition still_waiting (w : world) (i : nat) : bool :=
  match connect w i, retcode w i with
  | Some e, None => Model.caught e
  | _, _ => false
  end.

(** What one fruitless turn of the loop does. *)
Definition failed_round : trace :=
  [EConnect "127.0.0.1" 8000 1; EPoll; ESleep 1].

Fixpoint rounds (k : nat) : trace :=
  match k with
  | O => []
  | S k' => (failed_round ++ rounds k')%list
  end.

Definition started : trace :=
  [EPopen ("text-generation-launcher" :: LAUNCH_FLAGS);
   ENewClient "http://127.0.0.1:8000" 60].

Definition count_sleeps (t : trace) : nat := length (filter is_sleep t).
Definition count_connects (t : trace) : nat := length (filter is_connect t).

(** ** Sample worlds and clients *)

(** The server accepts the very first connection. *)
Definition world_up : world :=
  {| spawn := None; connect := fun _ => None; retcode := fun _ => None |}.

(** The port is closed for the first [k] attempts; from attempt [k] on
    [late] is what a connection meets and [code] what [poll] reports. *)
Definition world_after (k : nat) (late : option exn) (code : option Z)
  : world :=
  {| spawn := None;
     connect := fun i =>
       if (i <? k)%nat then Some ConnectionRefusedError else late;
     retcode := fun i => if (i <? k)%nat then None else code |}.

(** No descriptor is left for a socket: [create_connection] raises an
    [OSError] that is neither a timeout nor a refusal. *)
Definition EMFILE : exn := OtherError "OSError" "[Errno 24] Too many open files".

(** No local port is left for the connection: another plain [OSError]. *)
Definition EADDRNOTAVAIL : exn :=
  OtherError "OSError" "[Errno 99] Cannot assign requested address".

Definition tok (s : string) (sp : bool) : StreamResponse :=
  {| token := {| text := s; special := sp |} |}.

(** A server that answers every prompt with the same query. *)
Definition client_ok : Client.t :=
  {| Client.generate := fun _ _ =>
       inr {| generated_text := "SELECT COUNT(*) FROM salespeople;" |};
     Client.generate_stream := fun _ _ =>
       ([tok "<s>" true; tok "SELECT" false; tok " 1" false;
         tok "</s>" true], None) |}.

(** A server whose connection drops: at once for a completion, after one
    token for a stream. *)
Definition client_down : Client.t :=
  {| Client.generate := fun _ _ =>
       inl (OtherError "ClientConnectionError" "connection dropped");
     Client.generate_stream := fun _ _ =>
       ([tok "SELECT" false],
        Some (OtherError "ClientConnectionError" "connection dropped")) |}.

(** ** The name of the app *)

(** [s.split(sep)] for a separator of one character: the stretches of [s]
    between the separators, in order; never an empty list. *)
Fixpoint split_char (sep : ascii) (s : string) : list string :=
  match s with
  | EmptyString => [""]
  | String c s' =>
      if Ascii.eqb c sep then "" :: split_char sep s'
      else match split_char sep s' with
           | [] => [String c ""]
           | seg :: segs => String c seg :: segs
           end
  end.

(** ["example-tgi-" + model_id.split("/")[-1]] *)
Definition stub_name (model_id : string) : string :=
  "example-tgi-" ++ last (split_char "/" model_id) "".

(** [Stub("example-tgi-" + MODEL_ID.split("/")[-1], image=image)] *)
Definition STUB_NAME : string := stub_name MODEL_ID.

Fixpoint char_free (sep : ascii) (s : string) : bool :=
  match s with
  | EmptyString => true
  | String c s' => negb (Ascii.eqb c sep) && char_free sep s'
  end.

(** A text written so that [str.format] gives it back: every brace
    doubled. *)
Fixpoint escape_braces (s : string) : string :=
  match s with
  | EmptyString => ""
  | String c s' =>
      if brace c then String c (String c (escape_braces s'))
      else String c (escape_braces s')
  end.

(** ** More vocabulary *)

(** The events the readiness loop is made of. *)
Definition loop_event (ev : event) : bool :=
  match ev with
  | EConnect _ _ _ | EClose | EPoll | ESleep _ => true
  | _ => false
  end.

(** A plain replacement field name the keywords of [generate_prompt] do
    not cover: ASCII bytes, the first of them not a digit, no conversion,
    format spec, attribute or index, and neither of the two keywords. *)
Definition unknown_field (name : string) : bool :=
  match name with
  | EmptyString => false
  | String c _ => negb (is_digit c)
  end
  && all_ascii name
  && negb (has_beyond_fragment name)
  && negb (String.eqb "user_question" name)
  && negb (String.eqb "table_metadata_string" name).

(** A server whose stream breaks after the opening token and one word. *)
Definition client_cut : Client.t :=
  {| Client.generate := fun _ _ =>
       inl (OtherError "ClientConnectionError" "connection dropped");
     Client.generate_stream := fun _ _ =>
       ([tok "<s>" true; tok "SELECT" false],
        Some (OtherError "ClientConnectionError" "connection dropped")) |}.

(** * Properties *)

(** ** The monad *)

Lemma bind_ok {A B} (t : trace) (a : A) (k : A -> M B) :
  bind (t, Ok a) k = ((t ++ fst (k a))%list, snd (k a)).
Proof. unfold bind. destruct (k a); reflexivity. Qed.

Lemma bind_raise {A B} (t : trace) (e : exn) (k : A -> M B) :
  bind (t, Raise e) k = (t, Raise e).
Proof. reflexivity. Qed.

(** ** [str.format] *)

Lemma prepend_prepend (a b : string) (r : result string) :
  prepend a (prepend b r) = prepend (a ++ b) r.
Proof.
  destruct r as [s | e |]; simpl; trivial.
  f_equal. induction a as [| c a IH]; simpl; congruence.
Qed.

Lemma prepend_empty (r : result string) : prepend "" r = r.
Proof. destruct r; reflexivity. Qed.

(** One character of literal text is copied as it is. *)
Lemma format_from_char (kw : kwargs) (c : ascii) (rest : string) :
  brace c = false ->
  format_from kw None (String c rest)
  = prepend (String c "") (format_from kw None rest).
Proof.
  intros Hc. unfold brace in Hc. apply orb_false_elim in Hc as [Ho Hcl].
  apply Ascii.eqb_neq in Ho, Hcl.
  destruct c as [[] [] [] [] [] [] [] []]; try reflexivity; congruence.
Qed.

(** Literal text without braces is copied as it is. *)
Lemma format_from_text (kw : kwargs) (lit rest : string) :
  brace_free lit = true ->
  format_from kw None (lit ++ rest) = prepend lit (format_from kw None rest).
Proof.
  induction lit as [| c lit IH]; intros Hfree.
  - simpl. now rewrite prepend_empty.
  - cbn [brace_free] in Hfree. apply andb_true_iff in Hfree as [Hc Hl].
    apply negb_true_iff in Hc.
    change (String c lit ++ rest) with (String c (lit ++ rest)).
    rewrite format_from_char by assumption.
    rewrite IH by assumption. now rewrite prepend_prepend.
Qed.

(** A format string without braces is its own rendering. *)
Lemma format_from_tail (kw : kwargs) (lit : string) :
  brace_free lit = true -> format_from kw None lit = Ok lit.
Proof.
  intros Hfree.
  assert (Hlit : lit ++ "" = lit)
    by (clear; induction lit as [| c l IH]; simpl; congruence).
  rewrite <- Hlit at 1.
  rewrite format_from_text by assumption.
  simpl. now rewrite Hlit.
Qed.

Lemma append_assoc (a b c : string) : (a ++ b) ++ c = a ++ (b ++ c).
Proof. induction a as [| x a IH]; simpl; congruence. Qed.

Lemma append_empty_r (a : string) : a ++ "" = a.
Proof. induction a as [| x a IH]; simpl; congruence. Qed.

(** Inside a replacement field the name is gathered up to the closing
    brace, and the field's value is put in its place without being read
    as a format string itself. *)
Lemma format_from_name (kw : kwargs) (name acc rest : string) :
  brace_free name = true ->
  format_from kw (Some acc) (name ++ String "}" rest)
  = match field_value kw (acc ++ name) with
    | Ok v => prepend v (format_from kw None rest)
    | Raise e => Raise e
    | Unmodelled => Unmodelled
    end.
Proof.
  revert acc. induction name as [| c name IH]; intros acc Hfree.
  - simpl. now rewrite append_empty_r.
  - cbn [brace_free] in Hfree. apply andb_true_iff in Hfree as [Hc Hl].
    apply negb_true_iff in Hc.
    replace (acc ++ String c name) with ((acc ++ String c "") ++ name)
      by (rewrite append_assoc; reflexivity).
    rewrite <- IH by assumption.
    unfold brace in Hc. apply orb_false_elim in Hc as [Ho Hcl].
    apply Ascii.eqb_neq in Ho, Hcl.
    destruct c as [[] [] [] [] [] [] [] []]; try reflexivity; congruence.
Qed.

Lemma format_from_field (kw : kwargs) (c : ascii) (name rest : string) :
  brace_free (String c name) = true ->
  format_from kw None (String "{" (String c name ++ String "}" rest))
  = match field_value kw (String c name) with
    | Ok v => prepend v (format_from kw None rest)
    | Raise e => Raise e
    | Unmodelled => Unmodelled
    end.
Proof.
  intros Hfree.
  change (field_value kw (String c name))
    with (field_value kw ("" ++ String c name)).
  rewrite <- (format_from_name kw (String c name) "" rest Hfree).
  cbn [brace_free] in Hfree. apply andb_true_iff in Hfree as [Hc _].
  apply negb_true_iff in Hc.
  unfold brace in Hc. apply orb_false_elim in Hc as [Ho Hcl].
  apply Ascii.eqb_neq in Ho, Hcl.
  destruct c as [[] [] [] [] [] [] [] []]; try reflexivity; congruence.
Qed.

Lemma template_parts :
  PROMPT_TEMPLATE
  = TASK_TEXT ++ "{user_question}" ++ SCHEMA_TEXT
      ++ "{table_metadata_string}" ++ SQL_TEXT ++ "{user_question}"
      ++ FENCE_TEXT.
Proof. reflexivity. Qed.

Lemma str_format_template (question metadata : string) :
  str_format PROMPT_TEMPLATE
    [("user_question", question); ("table_metadata_string", metadata)]
  = Ok (filled question metadata).
Proof.
  unfold str_format. rewrite template_parts.
  rewrite format_from_text by reflexivity.
  change ("{user_question}" ++ ?r)
    with (String "{" ("user_question" ++ String "}" r)).
  rewrite format_from_field by reflexivity.
  change (field_value _ "user_question") with (Ok question).
  rewrite format_from_text by reflexivity.
  change ("{table_metadata_string}" ++ ?r)
    with (String "{" ("table_metadata_string" ++ String "}" r)).
  rewrite format_from_field by reflexivity.
  change (field_value _ "table_metadata_string") with (Ok metadata).
  rewrite format_from_text by reflexivity.
  change ("{user_question}" ++ ?r)
    with (String "{" ("user_question" ++ String "}" r)).
  rewrite format_from_field by reflexivity.
  change (field_value _ "user_question") with (Ok question).
  cbv beta iota.
  rewrite format_from_tail by reflexivity.
  reflexivity.
Qed.

(** ** [generate_prompt] *)

(** With the module's template the call cannot fail: it logs the question,
    fills the template and logs the prompt it returns. *)
Lemma generate_prompt_default (question metadata : string) :
  generate_prompt question PROMPT_TEMPLATE metadata
  = ([EPrint ("generate_prompt() Question: " ++ question);
      EPrint ("generate_prompt() Prompt: " ++ filled question metadata)],
     Ok (filled question metadata)).
Proof.
  unfold generate_prompt. rewrite str_format_template. reflexivity.
Qed.

(** C1, as the code has it: the prompt is the template with each
    replacement field filled by its argument, verbatim and without reading
    the inserted text as a format string. The template names
    [user_question] at two places and [table_metadata_string] at one, so
    the question is inserted twice and the schema once; the text around
    the fields is the template's own, byte for byte. The prompt is a
    function of the two arguments alone. *)
Theorem generate_prompt_fills_template :
  PROMPT_TEMPLATE
  = TASK_TEXT ++ "{user_question}" ++ SCHEMA_TEXT
      ++ "{table_metadata_string}" ++ SQL_TEXT ++ "{user_question}"
      ++ FENCE_TEXT
  /\ brace_free (TASK_TEXT ++ SCHEMA_TEXT ++ SQL_TEXT ++ FENCE_TEXT) = true
  /\ forall question metadata : string,
       snd (generate_prompt question PROMPT_TEMPLATE metadata)
       = Ok (TASK_TEXT ++ question ++ SCHEMA_TEXT ++ metadata ++ SQL_TEXT
               ++ question ++ FENCE_TEXT).
Proof.
  split; [exact template_parts | split; [reflexivity |]].
  intros question metadata. now rewrite generate_prompt_default.
Qed.

(** C1 as stated fails: a question that occurs nowhere in the template
    stands twice in the prompt, not once. *)
Lemma question_inserted_twice :
  count_substr "How many salespeople are there?" PROMPT_TEMPLATE = 0
  /\ snd (generate_prompt "How many salespeople are there?" PROMPT_TEMPLATE
            METADATA_DEFAULT)
     = Ok (filled "How many salespeople are there?" METADATA_DEFAULT)
  /\ count_substr "How many salespeople are there?"
       (filled "How many salespeople are there?" METADATA_DEFAULT) = 2.
Proof.
  split; [vm_compute; reflexivity |].
  split; [now rewrite generate_prompt_default | vm_compute; reflexivity].
Qed.

(** C6: for the question of the module's closing example and the default
    schema, the prompt begins with the task heading, holds the question and
    the whole schema text, and ends with the opened [sql] code fence. *)
Theorem generate_prompt_salespeople :
  exists prompt : string,
    snd (generate_prompt "How many salespeople are there?" PROMPT_TEMPLATE
           METADATA_DEFAULT) = Ok prompt
    /\ (exists rest, prompt = "### Task
Generate a SQL query" ++ rest)
    /\ (exists before after,
          prompt = before ++ "How many salespeople are there?" ++ after)
    /\ (exists before after, prompt = before ++ METADATA_DEFAULT ++ after)
    /\ (exists before, prompt = before ++ "```sql
").
Proof.
  exists (filled "How many salespeople are there?" METADATA_DEFAULT).
  split; [now rewrite generate_prompt_default |].
  split; [eexists; vm_compute; reflexivity |].
  split; [exists TASK_TEXT; eexists; unfold filled; reflexivity |].
  split.
  - exists (TASK_TEXT ++ "How many salespeople are there?" ++ SCHEMA_TEXT).
    exists (SQL_TEXT ++ "How many salespeople are there?" ++ FENCE_TEXT).
    vm_compute; reflexivity.
  - exists (TASK_TEXT ++ "How many salespeople are there?" ++ SCHEMA_TEXT
              ++ METADATA_DEFAULT ++ SQL_TEXT
              ++ "How many salespeople are there?" ++ "`:
").
    vm_compute; reflexivity.
Qed.

(** ** The readiness loop *)

Lemma webserver_ready_waiting (w : world) (i : nat) :
  still_waiting w i = true ->
  Model.webserver_ready w i = ([EConnect "127.0.0.1" 8000 1; EPoll], Ok false).
Proof.
  unfold still_waiting, Model.webserver_ready.
  destruct (connect w i) as [e |]; [| discriminate].
  destruct (retcode w i); [discriminate |].
  intros ->. reflexivity.
Qed.

Lemma webserver_ready_connected (w : world) (i : nat) :
  connect w i = None ->
  Model.webserver_ready w i = ([EConnect "127.0.0.1" 8000 1; EClose], Ok true).
Proof. unfold Model.webserver_ready. intros ->. reflexivity. Qed.

Lemma webserver_ready_exited (w : world) (i : nat) (e : exn) (n : Z) :
  connect w i = Some e -> Model.caught e = true -> retcode w i = Some n ->
  Model.webserver_ready w i
  = ([EConnect "127.0.0.1" 8000 1; EPoll],
     Raise (RuntimeError
              ("launcher exited unexpectedly with code " ++ str_of_int n))).
Proof.
  unfold Model.webserver_ready. intros -> -> ->. reflexivity.
Qed.

Lemma webserver_ready_uncaught (w : world) (i : nat) (e : exn) :
  connect w i = Some e -> Model.caught e = false ->
  Model.webserver_ready w i = ([EConnect "127.0.0.1" 8000 1], Raise e).
Proof. unfold Model.webserver_ready. intros -> ->. reflexivity. Qed.

(** [webserver_ready] answers [True] only for a connection that was made. *)
Lemma webserver_ready_true (w : world) (i : nat) (t : trace) :
  Model.webserver_ready w i = (t, Ok true) ->
  connect w i = None /\ t = [EConnect "127.0.0.1" 8000 1; EClose].
Proof.
  unfold Model.webserver_ready.
  destruct (connect w i) as [e |].
  - destruct (Model.caught e); [destruct (retcode w i) |]; discriminate.
  - intros H. injection H as <-. auto.
Qed.

(** [webserver_ready] answers [False] only in the [except] branch with the
    launcher alive. *)
Lemma webserver_ready_false (w : world) (i : nat) (t : trace) :
  Model.webserver_ready w i = (t, Ok false) ->
  still_waiting w i = true /\ t = [EConnect "127.0.0.1" 8000 1; EPoll].
Proof.
  unfold Model.webserver_ready, still_waiting.
  destruct (connect w i) as [e |]; [| discriminate].
  destruct (Model.caught e); [| discriminate].
  destruct (retcode w i); [discriminate |].
  intros H. injection H as <-. auto.
Qed.

(** [k] fruitless turns from attempt [i] on use up [k] units of fuel and
    leave the loop at attempt [i + k]. *)
Lemma wait_loop_rounds (w : world) (k : nat) :
  forall i fuel,
    (forall j, j < k -> still_waiting w (i + j) = true) ->
    Model.wait_loop w (k + fuel) i
    = ((rounds k ++ fst (Model.wait_loop w fuel (i + k)))%list,
       snd (Model.wait_loop w fuel (i + k))).
Proof.
  induction k as [| k IH]; intros i fuel Hwait.
  - rewrite Nat.add_0_r. simpl. now destruct (Model.wait_loop w fuel i).
  - cbn [Nat.add Model.wait_loop].
    rewrite webserver_ready_waiting
      by (rewrite <- (Nat.add_0_r i); apply Hwait; lia).
    rewrite IH.
    + replace (S i + k) with (i + S k) by lia.
      cbn [rounds failed_round]. rewrite <- app_assoc. reflexivity.
    + intros j Hj. replace (S i + j) with (i + S j) by lia.
      apply Hwait. lia.
Qed.

(** A loop that has halted is deaf to further fuel. *)
Lemma wait_loop_more_fuel (w : world) (fuel : nat) :
  forall i extra t r,
    Model.wait_loop w fuel i = (t, Halted r) ->
    Model.wait_loop w (fuel + extra) i = (t, Halted r).
Proof.
  induction fuel as [| fuel IH]; intros i extra t r H; [discriminate |].
  cbn [Nat.add Model.wait_loop] in *.
  destruct (Model.webserver_ready w i) as [t0 [[] | e |]]; try assumption.
  destruct (Model.wait_loop w fuel (S i)) as [t1 p] eqn:Hrest.
  injection H as <- ->.
  now rewrite (IH _ extra _ _ Hrest).
Qed.

(** The loop leaves with [Ok] only through a connection that was made, and
    every attempt before it ended in the [except] branch. *)
Lemma wait_loop_ready (w : world) (fuel : nat) :
  forall i t,
    Model.wait_loop w fuel i = (t, Halted (Ok tt)) ->
    exists k,
      k < fuel
      /\ connect w (i + k) = None
      /\ (forall j, j < k -> still_waiting w (i + j) = true)
      /\ t = (rounds k ++ [EConnect "127.0.0.1" 8000 1; EClose])%list.
Proof.
  induction fuel as [| fuel IH]; intros i t H; [discriminate |].
  cbn [Model.wait_loop] in H.
  destruct (Model.webserver_ready w i) as [t0 [[] | e |]] eqn:Hready;
    try discriminate.
  - apply webserver_ready_true in Hready as [Hconn ->].
    injection H as <-. exists 0. rewrite Nat.add_0_r.
    split; [lia | split; [assumption | split; [intros j Hj; lia |]]].
    reflexivity.
  - apply webserver_ready_false in Hready as [Hwait ->].
    destruct (Model.wait_loop w fuel (S i)) as [t1 p] eqn:Hrest.
    injection H as <- ->.
    destruct (IH _ _ Hrest) as (k & Hk & Hconn & Hbefore & ->).
    exists (S k). replace (i + S k) with (S i + k) by lia.
    split; [lia | split; [assumption | split]].
    + intros [| j] Hj; [now rewrite Nat.add_0_r |].
      replace (i + S j) with (S i + j) by lia. apply Hbefore. lia.
    + cbn [rounds failed_round]. now rewrite <- !app_assoc.
Qed.

Lemma count_sleeps_app (t u : trace) :
  count_sleeps (t ++ u)%list = count_sleeps t + count_sleeps u.
Proof. unfold count_sleeps. now rewrite filter_app, length_app. Qed.

Lemma count_sleeps_rounds (k : nat) : count_sleeps (rounds k) = k.
Proof.
  induction k as [| k IH]; [reflexivity |].
  cbn [rounds]. rewrite count_sleeps_app, IH. reflexivity.
Qed.

Lemma count_connects_app (t u : trace) :
  count_connects (t ++ u)%list = count_connects t + count_connects u.
Proof. unfold count_connects. now rewrite filter_app, length_app. Qed.

Lemma count_connects_rounds (k : nat) : count_connects (rounds k) = k.
Proof.
  induction k as [| k IH]; [reflexivity |].
  cbn [rounds]. rewrite count_connects_app, IH. reflexivity.
Qed.

(** ** [Model.__enter__] *)

Lemma enter_spawned (w : world) (fuel : nat) :
  spawn w = None ->
  Model.__enter__ w fuel
  = match Model.wait_loop w fuel 0 with
    | (t, Halted (Ok tt)) =>
        ((started ++ t ++ [EPrint "Webserver ready!"])%list, Halted (Ok tt))
    | (t, p) => ((started ++ t)%list, p)
    end.
Proof. unfold Model.__enter__. intros ->. reflexivity. Qed.

(** C2: the start-up hook returns only after a connection to
    127.0.0.1:8000 was made, every attempt before it having ended in the
    [except] branch with the launcher alive; and when the first attempt
    connects, the hook returns on that attempt, with one connection made
    and no sleep. *)
Theorem enter_returns_after_connect (w : world) :
  (forall fuel t,
      Model.__enter__ w fuel = (t, Halted (Ok tt)) ->
      exists k,
        k < fuel
        /\ connect w k = None
        /\ (forall j, j < k -> still_waiting w j = true)
        /\ t = (started ++ rounds k
                  ++ [EConnect "127.0.0.1" 8000 1; EClose;
                      EPrint "Webserver ready!"])%list)
  /\ (spawn w = None ->
      connect w 0 = None ->
      forall fuel,
        0 < fuel ->
        Model.__enter__ w fuel
        = ((started
              ++ [EConnect "127.0.0.1" 8000 1; EClose;
                  EPrint "Webserver ready!"])%list,
           Halted (Ok tt))).
Proof.
  split.
  - intros fuel t H.
    destruct (spawn w) as [e |] eqn:Hspawn.
    + unfold Model.__enter__ in H. rewrite Hspawn in H. discriminate.
    + rewrite enter_spawned in H by assumption.
      destruct (Model.wait_loop w fuel 0) as [t0 [[[] | e |] |]] eqn:Hloop;
        try discriminate.
      injection H as <-.
      destruct (wait_loop_ready _ _ _ _ Hloop) as (k & Hk & Hconn & Hbefore & ->).
      exists k. split; [assumption | split; [assumption | split]].
      * exact Hbefore.
      * now rewrite <- !app_assoc.
  - intros Hspawn Hconn [| fuel] Hfuel; [lia |].
    rewrite enter_spawned by assumption.
    cbn [Model.wait_loop]. rewrite webserver_ready_connected by assumption.
    reflexivity.
Qed.

(** On a server that is up at once the hook makes one connection, closes
    it and reports readiness. *)
Lemma enter_world_up :
  Model.__enter__ world_up 1
  = ((started
        ++ [EConnect "127.0.0.1" 8000 1; EClose; EPrint "Webserver ready!"])%list,
     Halted (Ok tt)).
Proof.
  apply (proj2 (enter_returns_after_connect world_up));
    [reflexivity | reflexivity | lia].
Defined.

(** C3, as the code has it: when a connection attempt times out or is
    refused and the launcher has exited with code [N], every earlier
    attempt having ended in the [except] branch with the launcher alive,
    the hook raises on that attempt the [RuntimeError] that names [N], and
    the loop takes no further turn whatever time it is given. *)
Theorem enter_launcher_exited (w : world) (k : nat) (e : exn) (N : Z) :
  spawn w = None ->
  (forall j, j < k -> still_waiting w j = true) ->
  connect w k = Some e ->
  Model.caught e = true ->
  retcode w k = Some N ->
  forall fuel,
    k < fuel ->
    Model.__enter__ w fuel
    = ((started ++ rounds k ++ [EConnect "127.0.0.1" 8000 1; EPoll])%list,
       Halted
         (Raise
            (RuntimeError
               ("launcher exited unexpectedly with code " ++ str_of_int N)))).
Proof.
  intros Hspawn Hbefore Hconn Hcaught Hcode fuel Hfuel.
  rewrite enter_spawned by assumption.
  replace fuel with (k + S (fuel - S k)) by lia.
  rewrite wait_loop_rounds by assumption.
  cbn [Model.wait_loop Nat.add].
  rewrite (webserver_ready_exited w k e N) by assumption.
  reflexivity.
Qed.

(** Two refusals with the launcher alive, then a timeout with the launcher
    killed by signal 9. *)
Lemma enter_launcher_killed :
  Model.__enter__ (world_after 2 (Some SocketTimeout) (Some (-9)%Z)) 5
  = ((started ++ rounds 2 ++ [EConnect "127.0.0.1" 8000 1; EPoll])%list,
     Halted
       (Raise (RuntimeError "launcher exited unexpectedly with code -9"))).
Proof.
  apply (enter_launcher_exited
           (world_after 2 (Some SocketTimeout) (Some (-9)%Z)) 2
           SocketTimeout (-9)%Z);
    try reflexivity; [| lia].
  intros [| [| j]] Hj; [reflexivity | reflexivity | lia].
Defined.

(** C3 as stated fails: a connection attempt that fails with an error the
    [except] clause does not name leaves the hook with that error, the
    launcher is never polled, and its exit code 1 is not reported. *)
Lemma enter_oserror_not_launch_failure :
  connect (world_after 0 (Some EADDRNOTAVAIL) (Some 1%Z)) 0 = Some EADDRNOTAVAIL
  /\ retcode (world_after 0 (Some EADDRNOTAVAIL) (Some 1%Z)) 0 = Some 1%Z
  /\ Model.__enter__ (world_after 0 (Some EADDRNOTAVAIL) (Some 1%Z)) 3
     = ((started ++ [EConnect "127.0.0.1" 8000 1])%list,
        Halted (Raise EADDRNOTAVAIL)).
Proof. repeat split. Qed.

(** C4, as the code has it: while every connection attempt times out or
    is refused and the launcher has not exited, the hook neither returns
    nor raises; after [K] such attempts it has slept one second [K] times
    and is still in the loop. *)
Theorem enter_polls_on (w : world) (K : nat) :
  spawn w = None ->
  (forall j, j < K -> still_waiting w j = true) ->
  Model.__enter__ w K = ((started ++ rounds K)%list, StillPolling)
  /\ count_sleeps (fst (Model.__enter__ w K)) = K
  /\ count_connects (fst (Model.__enter__ w K)) = K
  /\ forall fuel, fuel <= K -> snd (Model.__enter__ w fuel) = StillPolling.
Proof.
  intros Hspawn Hwait.
  assert (Hrun : forall fuel, fuel <= K ->
            Model.__enter__ w fuel = ((started ++ rounds fuel)%list, StillPolling)).
  { intros fuel Hfuel. rewrite enter_spawned by assumption.
    rewrite <- (Nat.add_0_r fuel) at 1.
    rewrite wait_loop_rounds by (intros j Hj; apply Hwait; lia).
    cbn [Model.wait_loop fst snd]. now rewrite app_nil_r. }
  split; [apply Hrun; lia |].
  rewrite (Hrun K) by lia. cbn [fst].
  split; [| split].
  - rewrite count_sleeps_app, count_sleeps_rounds. reflexivity.
  - rewrite count_connects_app, count_connects_rounds. reflexivity.
  - intros fuel Hfuel. now rewrite Hrun.
Qed.

(** Three refusals with the launcher alive: three sleeps, still polling. *)
Lemma enter_polls_on_three :
  Model.__enter__ (world_after 3 None None) 3
  = ((started ++ rounds 3)%list, StillPolling)
  /\ count_sleeps (fst (Model.__enter__ (world_after 3 None None) 3)) = 3
  /\ count_connects (fst (Model.__enter__ (world_after 3 None None) 3)) = 3
  /\ forall fuel,
       fuel <= 3 ->
       snd (Model.__enter__ (world_after 3 None None) fuel) = StillPolling.
Proof.
  apply (enter_polls_on (world_after 3 None None) 3); [reflexivity |].
  intros [| [| [| j]]] Hj; [reflexivity | reflexivity | reflexivity | lia].
Defined.

(** C4 as stated fails: the launcher neither accepts a connection nor
    exits, the first attempt fails with an error the [except] clause does
    not name, and the hook raises it at once instead of sleeping. *)
Lemma enter_fails_without_exit :
  connect (world_after 0 (Some EMFILE) None) 0 = Some EMFILE
  /\ retcode (world_after 0 (Some EMFILE) None) 0 = None
  /\ Model.__enter__ (world_after 0 (Some EMFILE) None) 1
     = ((started ++ [EConnect "127.0.0.1" 8000 1])%list,
        Halted (Raise EMFILE))
  /\ count_sleeps
       (fst (Model.__enter__ (world_after 0 (Some EMFILE) None) 1)) = 0.
Proof. repeat split. Qed.

(** ** [Model.generate] and [Model.generate_stream] *)

Lemma yielded_yield_tokens (responses : list StreamResponse) :
  yielded (Model.yield_tokens responses)
  = map text (filter plain (map token responses)).
Proof.
  induction responses as [| r rest IH]; [reflexivity |].
  cbn [Model.yield_tokens map filter]. unfold plain at 1.
  destruct (special (token r)); cbn [negb yielded map]; congruence.
Qed.

Lemma client_calls_yield_tokens (responses : list StreamResponse) :
  client_calls (Model.yield_tokens responses) = [].
Proof.
  induction responses as [| r rest IH]; [reflexivity |].
  cbn [Model.yield_tokens]. now destruct (special (token r)).
Qed.

(** What [generate] does, by the answer of the client. *)
Lemma generate_unfold (self : Client.t) (question metadata : string) :
  Model.generate self question metadata
  = let prompt := filled question metadata in
    let before :=
      [EPrint "Generating...";
       EPrint ("generate_prompt() Question: " ++ question);
       EPrint ("generate_prompt() Prompt: " ++ prompt);
       EClientGenerate prompt 1024] in
    match Client.generate self prompt 1024 with
    | inl e => (before, Raise e)
    | inr result =>
        ((before ++ [EPrint "Generated!";
                     EPrint ("Result: " ++ generated_text result)])%list,
         Ok (generated_text result))
    end.
Proof.
  unfold Model.generate, Model.client_generate.
  rewrite generate_prompt_default.
  cbv beta iota zeta delta [bind print emit ret raise].
  destruct (Client.generate self (filled question metadata) 1024);
    reflexivity.
Qed.

(** What [generate_stream] does, by the stream of the client. *)
Lemma generate_stream_unfold (self : Client.t) (question metadata : string) :
  Model.generate_stream self question metadata
  = let prompt := filled question metadata in
    let stream := Client.generate_stream self prompt 1024 in
    (([EPrint ("generate_prompt() Question: " ++ question);
       EPrint ("generate_prompt() Prompt: " ++ prompt);
       EClientGenerateStream prompt 1024]
        ++ Model.yield_tokens (fst stream))%list,
     match snd stream with
     | Some e => Raise e
     | None => Ok tt
     end).
Proof.
  unfold Model.generate_stream, Model.client_generate_stream.
  rewrite generate_prompt_default.
  cbv beta iota zeta delta [bind print emit ret raise].
  destruct (Client.generate_stream self (filled question metadata) 1024)
    as [responses [e |]]; reflexivity.
Qed.

(** C5: whatever finite sequence of responses the client's stream
    delivers, [generate_stream] yields the text of exactly the tokens not
    flagged special, in the order of arrival, and ends normally when the
    stream ends. *)
Theorem generate_stream_yields_plain_tokens
    (self : Client.t) (question metadata : string) :
  yielded (fst (Model.generate_stream self question metadata))
  = map text
      (filter plain
         (map token
            (fst (Client.generate_stream self
                    (filled question metadata) 1024))))
  /\ (snd (Client.generate_stream self (filled question metadata) 1024)
      = None ->
      snd (Model.generate_stream self question metadata) = Ok tt).
Proof.
  rewrite generate_stream_unfold. cbv zeta. cbn [fst snd]. split.
  - cbn [app yielded]. apply yielded_yield_tokens.
  - now intros ->.
Qed.

(** The two special tokens that frame the answer are left out. *)
Lemma generate_stream_client_ok :
  yielded (fst (Model.generate_stream client_ok "How many?" METADATA_DEFAULT))
  = ["SELECT"; " 1"]
  /\ snd (Model.generate_stream client_ok "How many?" METADATA_DEFAULT)
     = Ok tt.
Proof.
  destruct (generate_stream_yields_plain_tokens
              client_ok "How many?" METADATA_DEFAULT) as [Hy Hend].
  split; [rewrite Hy; reflexivity | apply Hend; reflexivity].
Defined.

(** C7, as the code has it: an exception of the client is the exception
    of the wrapper, neither retried nor caught nor changed. In [generate]
    the one call to the client is the last thing done and no text is
    returned; in [generate_stream] the generator has yielded the plain
    tokens that arrived before the break, ends with the client's
    exception instead of ending normally, and has called the client once.
    When the client answers, [generate] returns the answer's
    [generated_text]. *)
Theorem client_error_propagates
    (self : Client.t) (question metadata : string) :
  (forall e,
      Client.generate self (filled question metadata) 1024 = inl e ->
      Model.generate self question metadata
      = ([EPrint "Generating...";
          EPrint ("generate_prompt() Question: " ++ question);
          EPrint ("generate_prompt() Prompt: " ++ filled question metadata);
          EClientGenerate (filled question metadata) 1024],
         Raise e))
  /\ (forall result,
         Client.generate self (filled question metadata) 1024 = inr result ->
         snd (Model.generate self question metadata)
         = Ok (generated_text result))
  /\ (forall responses e,
         Client.generate_stream self (filled question metadata) 1024
         = (responses, Some e) ->
         snd (Model.generate_stream self question metadata) = Raise e
         /\ client_calls (fst (Model.generate_stream self question metadata))
            = [(filled question metadata, 1024%Z)]
         /\ yielded (fst (Model.generate_stream self question metadata))
            = map text (filter plain (map token responses))).
Proof.
  split; [| split].
  - intros e He. rewrite generate_unfold. cbv zeta. now rewrite He.
  - intros result Hr. rewrite generate_unfold. cbv zeta. now rewrite Hr.
  - intros responses e Hs. rewrite generate_stream_unfold. cbv zeta.
    rewrite Hs. cbn [fst snd app client_calls yielded].
    rewrite client_calls_yield_tokens, yielded_yield_tokens. auto.
Qed.

(** C7 as stated fails on the streaming path: when the stream breaks
    after a token has arrived, that token has reached the consumer before
    the exception does. *)
Lemma generate_stream_partial_before_error :
  Client.generate_stream client_down
    (filled "How many?" METADATA_DEFAULT) 1024
  = ([tok "SELECT" false],
     Some (OtherError "ClientConnectionError" "connection dropped"))
  /\ yielded
       (fst (Model.generate_stream client_down "How many?" METADATA_DEFAULT))
     = ["SELECT"]
  /\ snd (Model.generate_stream client_down "How many?" METADATA_DEFAULT)
     = Raise (OtherError "ClientConnectionError" "connection dropped").
Proof.
  rewrite generate_stream_unfold. cbv zeta.
  split; [reflexivity | split; reflexivity].
Qed.

(** A dropped connection surfaces as it is from both wrappers. *)
Lemma client_down_propagates :
  snd (Model.generate client_down "How many?" METADATA_DEFAULT)
  = Raise (OtherError "ClientConnectionError" "connection dropped")
  /\ snd (Model.generate_stream client_down "How many?" METADATA_DEFAULT)
     = Raise (OtherError "ClientConnectionError" "connection dropped").
Proof.
  destruct (client_error_propagates client_down "How many?" METADATA_DEFAULT)
    as (Hgen & _ & Hstream).
  split.
  - rewrite (Hgen _ eq_refl). reflexivity.
  - exact (proj1 (Hstream _ _ eq_refl)).
Defined.

(** C9: each wrapper calls the client once, with [max_new_tokens] equal
    to 1024; the wrappers take a question and a schema and nothing that
    could set another limit. *)
Theorem max_new_tokens_fixed
    (self : Client.t) (question metadata : string) :
  map snd (client_calls (fst (Model.generate self question metadata)))
  = [1024%Z]
  /\ map snd
       (client_calls (fst (Model.generate_stream self question metadata)))
     = [1024%Z].
Proof.
  rewrite generate_unfold, generate_stream_unfold. cbv zeta. split.
  - now destruct (Client.generate self (filled question metadata) 1024).
  - cbn [fst app client_calls]. now rewrite client_calls_yield_tokens.
Qed.

(** C10: the prompt each wrapper sends is the one [generate_prompt]
    returns for the question, the module's template and the schema; the
    two wrappers send the same string, whatever the client. *)
Theorem same_prompt_both_paths
    (self self' : Client.t) (question metadata : string) :
  exists prompt : string,
    snd (generate_prompt question PROMPT_TEMPLATE metadata) = Ok prompt
    /\ map fst (client_calls (fst (Model.generate self question metadata)))
       = [prompt]
    /\ map fst
         (client_calls
            (fst (Model.generate_stream self' question metadata)))
       = [prompt].
Proof.
  exists (filled question metadata).
  rewrite generate_prompt_default, generate_unfold, generate_stream_unfold.
  cbv zeta. split; [reflexivity | split].
  - now destruct (Client.generate self (filled question metadata) 1024).
  - cbn [fst app client_calls]. now rewrite client_calls_yield_tokens.
Qed.

(** ** [Model.__exit__] *)

(** The shutdown hook has no guard of its own: each call is one call of
    the launcher's [terminate], and raises what that call raises. *)
Lemma exit_twice (first second : option exn) :
  fst (bind (Model.__exit__ first) (fun _ => Model.__exit__ second))
  = match first with
    | None => [ETerminate; ETerminate]
    | Some _ => [ETerminate]
    end.
Proof. destruct first, second; reflexivity. Qed.

(** * Further properties *)

(** ** [generate_prompt] with a template of the caller's *)

(** A template without braces has no replacement field: the prompt is the
    template itself, and the question and the schema appear nowhere in it
    unless the template spells them out. *)
Theorem generate_prompt_plain_template
    (question template metadata : string) :
  brace_free template = true ->
  generate_prompt question template metadata
  = ([EPrint ("generate_prompt() Question: " ++ question);
      EPrint ("generate_prompt() Prompt: " ++ template)],
     Ok template).
Proof.
  intros Hfree. unfold generate_prompt, str_format.
  rewrite format_from_tail by assumption. reflexivity.
Qed.

Lemma generate_prompt_plain_example :
  generate_prompt "How many?" "SELECT 1;" METADATA_DEFAULT
  = ([EPrint "generate_prompt() Question: How many?";
      EPrint "generate_prompt() Prompt: SELECT 1;"],
     Ok "SELECT 1;").
Proof.
  apply (generate_prompt_plain_template "How many?" "SELECT 1;" METADATA_DEFAULT).
  reflexivity.
Defined.

(** A template whose first replacement field is a plain name, not
    beginning with a digit, that is neither [user_question] nor
    [table_metadata_string] makes [generate_prompt] raise [KeyError] with
    that name: the question has been logged, no prompt is logged or
    returned. *)
Theorem generate_prompt_unknown_field
    (question metadata lit name rest : string) (c : ascii) :
  brace_free lit = true ->
  brace_free (String c name) = true ->
  unknown_field (String c name) = true ->
  generate_prompt question
    (lit ++ String "{" (String c name ++ String "}" rest)) metadata
  = ([EPrint ("generate_prompt() Question: " ++ question)],
     Raise (KeyError (String c name))).
Proof.
  intros Hlit Hname Hunknown.
  unfold unknown_field in Hunknown.
  repeat (apply andb_true_iff in Hunknown as [Hunknown ?]).
  cbv beta iota in Hunknown.
  repeat match goal with H : negb _ = true |- _ => apply negb_true_iff in H end.
  unfold generate_prompt, str_format.
  rewrite format_from_text by assumption.
  rewrite format_from_field by assumption.
  unfold field_value.
  match goal with H : has_beyond_fragment _ = false |- _ => rewrite H end.
  match goal with H : all_ascii _ = true |- _ => rewrite H end.
  cbn [leading_digits all_digits]. rewrite Hunknown.
  cbn [negb orb andb Nat.ltb Nat.leb lookup].
  repeat match goal with H : String.eqb _ _ = false |- _ => rewrite H end.
  reflexivity.
Qed.

Lemma generate_prompt_unknown_field_example :
  generate_prompt "How many?" "Answer {question} in SQL" METADATA_DEFAULT
  = ([EPrint "generate_prompt() Question: How many?"],
     Raise (KeyError "question")).
Proof.
  apply (generate_prompt_unknown_field
           "How many?" METADATA_DEFAULT "Answer " "uestion" " in SQL" "q");
    reflexivity.
Defined.

(** A closing brace that is not doubled, met in literal text, makes
    [generate_prompt] raise [ValueError] after logging the question. *)
Theorem generate_prompt_lone_closing_brace
    (question metadata lit rest : string) :
  brace_free lit = true ->
  String.prefix "}" rest = false ->
  generate_prompt question (lit ++ String "}" rest) metadata
  = ([EPrint ("generate_prompt() Question: " ++ question)],
     Raise (ValueError "Single '}' encountered in format string")).
Proof.
  intros Hlit Hrest. unfold generate_prompt, str_format.
  rewrite format_from_text by assumption.
  destruct rest as [| c rest]; [reflexivity |].
  cbn [String.prefix] in Hrest.
  destruct (Ascii.ascii_dec "}"%char c) as [Heq | Hne].
  - destruct rest; discriminate.
  - destruct c as [[] [] [] [] [] [] [] []]; try reflexivity; congruence.
Qed.

Lemma generate_prompt_lone_closing_brace_example :
  generate_prompt "How many?" "SELECT 1 } FROM t" METADATA_DEFAULT
  = ([EPrint "generate_prompt() Question: How many?"],
     Raise (ValueError "Single '}' encountered in format string")).
Proof.
  apply (generate_prompt_lone_closing_brace
           "How many?" METADATA_DEFAULT "SELECT 1 " " FROM t");
    reflexivity.
Defined.

(** Doubling the braces of a text makes it a template that stands for
    that text: [generate_prompt] gives the text back whatever it holds,
    and the question and the schema are not looked at. *)
Theorem generate_prompt_escaped_template
    (question text metadata : string) :
  snd (generate_prompt question (escape_braces text) metadata) = Ok text.
Proof.
  assert (Hfmt : forall kw, format_from kw None (escape_braces text) = Ok text).
  { intros kw. induction text as [| c text IH]; [reflexivity |].
    cbn [escape_braces]. destruct (brace c) eqn:Hc.
    - unfold brace in Hc. apply orb_true_iff in Hc as [Hc | Hc];
        apply Ascii.eqb_eq in Hc; subst c;
        cbn [format_from]; rewrite IH; reflexivity.
    - rewrite format_from_char by assumption. rewrite IH. reflexivity. }
  unfold generate_prompt, str_format. rewrite Hfmt. reflexivity.
Qed.

(** ** The size and the ambiguity of the prompt *)

Lemma length_app_string (a b : string) :
  String.length (a ++ b) = String.length a + String.length b.
Proof. induction a as [| c a IH]; simpl; congruence. Qed.

(** The prompt is 499 bytes of template text longer than the schema and
    twice the question. *)
Theorem generate_prompt_length (question metadata : string) :
  exists prompt : string,
    snd (generate_prompt question PROMPT_TEMPLATE metadata) = Ok prompt
    /\ String.length prompt
       = 499 + 2 * String.length question + String.length metadata.
Proof.
  exists (filled question metadata).
  rewrite generate_prompt_default. split; [reflexivity |].
  unfold filled. rewrite !length_app_string.
  change (String.length TASK_TEXT) with 65.
  change (String.length SCHEMA_TEXT) with 83.
  change (String.length SQL_TEXT) with 341.
  change (String.length FENCE_TEXT) with 10.
  lia.
Qed.

(** The prompt does not tell where the question ends and the schema
    begins: a question that carries the template's own headings and an
    empty schema give the prompt of an empty question with a schema made
    of those headings. *)
Theorem generate_prompt_not_injective :
  exists q1 m1 q2 m2 prompt : string,
    String.eqb q1 q2 = false
    /\ String.eqb m1 m2 = false
    /\ snd (generate_prompt q1 PROMPT_TEMPLATE m1) = Ok prompt
    /\ snd (generate_prompt q2 PROMPT_TEMPLATE m2) = Ok prompt.
Proof.
  exists "", (SQL_TEXT ++ SCHEMA_TEXT ++ SQL_TEXT ++ SCHEMA_TEXT).
  exists (SCHEMA_TEXT ++ SQL_TEXT), "".
  exists (filled (SCHEMA_TEXT ++ SQL_TEXT) "").
  rewrite !generate_prompt_default.
  split; [reflexivity | split; [reflexivity | split]].
  - vm_compute. reflexivity.
  - reflexivity.
Qed.

(** ** The name of the app *)

Lemma split_char_nonempty (sep : ascii) (s : string) :
  split_char sep s <> [].
Proof.
  destruct s as [| c s]; [discriminate |].
  cbn [split_char]. destruct (Ascii.eqb c sep); [discriminate |].
  destruct (split_char sep s); discriminate.
Qed.

(** Splitting at a separator splits what stands before it and what stands
    after it. *)
Lemma split_char_app (sep : ascii) (a b : string) :
  split_char sep (a ++ String sep b)
  = (split_char sep a ++ split_char sep b)%list.
Proof.
  induction a as [| c a IH].
  - cbn [append split_char]. rewrite Ascii.eqb_refl. reflexivity.
  - cbn [append split_char]. rewrite IH.
    destruct (Ascii.eqb c sep); [reflexivity |].
    pose proof (split_char_nonempty sep a) as Hne.
    destruct (split_char sep a) as [| seg segs]; [congruence | reflexivity].
Qed.

Lemma split_char_free (sep : ascii) (s : string) :
  char_free sep s = true -> split_char sep s = [s].
Proof.
  induction s as [| c s IH]; [reflexivity |].
  cbn [char_free split_char]. intros H.
  apply andb_true_iff in H as [Hc Hs]. apply negb_true_iff in Hc.
  rewrite Hc, (IH Hs). reflexivity.
Qed.

(** The app is named after what follows the last slash of the model
    identifier, whatever organisation path stands before it. *)
Theorem stub_name_last_segment (org name : string) :
  char_free "/" name = true ->
  stub_name (org ++ String "/" name) = "example-tgi-" ++ name.
Proof.
  intros Hname. unfold stub_name.
  rewrite split_char_app, (split_char_free _ _ Hname).
  now rewrite last_last.
Qed.

(** The app of this module is the one its closing comment looks up. *)
Lemma stub_name_sqlcoder2 : STUB_NAME = "example-tgi-sqlcoder2".
Proof.
  apply (stub_name_last_segment "defog" "sqlcoder2"). reflexivity.
Defined.

(** ** More on the readiness loop *)

Lemma webserver_ready_events (w : world) (i : nat) :
  forallb loop_event (fst (Model.webserver_ready w i)) = true.
Proof.
  unfold Model.webserver_ready.
  destruct (connect w i) as [e |]; [| reflexivity].
  destruct (Model.caught e); [| reflexivity].
  destruct (retcode w i); reflexivity.
Qed.

(** The loop does nothing but connect, close, poll and sleep. *)
Lemma wait_loop_events (w : world) (fuel : nat) :
  forall i, forallb loop_event (fst (Model.wait_loop w fuel i)) = true.
Proof.
  induction fuel as [| fuel IH]; intros i; [reflexivity |].
  cbn [Model.wait_loop].
  pose proof (webserver_ready_events w i) as Hready.
  destruct (Model.webserver_ready w i) as [t0 [[] | e |]]; try exact Hready.
  specialize (IH (S i)).
  destruct (Model.wait_loop w fuel (S i)) as [t1 p].
  cbn [fst] in *. rewrite forallb_app. cbn [forallb loop_event].
  now rewrite Hready, IH.
Qed.

Lemma loop_events_no_print (t : trace) (line : string) :
  forallb loop_event t = true -> ~ In (EPrint line) t.
Proof.
  intros Hall Hin. rewrite forallb_forall in Hall.
  specialize (Hall _ Hin). discriminate.
Qed.

(** Whatever the world does and however long the hook is watched, the
    line [Webserver ready!] is in its output exactly when it has
    returned. *)
Theorem enter_ready_line_iff_returned (w : world) (fuel : nat) :
  In (EPrint "Webserver ready!") (fst (Model.__enter__ w fuel))
  <-> snd (Model.__enter__ w fuel) = Halted (Ok tt).
Proof.
  unfold Model.__enter__.
  destruct (spawn w) as [e |].
  - cbn [fst snd]. split; [| discriminate].
    intros [H | []]. discriminate.
  - pose proof (wait_loop_events w fuel 0) as Hall.
    destruct (Model.wait_loop w fuel 0) as [t [[[] | e |] |]];
      cbn [fst snd] in *.
    + split; [reflexivity |]. intros _.
      apply in_or_app. right. apply in_or_app. right. now left.
    + split; [| discriminate]. intros [H | [H | H]]; try discriminate.
      now apply loop_events_no_print in H.
    + split; [| discriminate]. intros [H | [H | H]]; try discriminate.
      now apply loop_events_no_print in H.
    + split; [| discriminate]. intros [H | [H | H]]; try discriminate.
      now apply loop_events_no_print in H.
Qed.

(** Attempts and sleeps of the loop, for every world: while it polls it
    has slept once after each attempt; when it has halted it made one
    attempt more than it slept. *)
Lemma wait_loop_accounting (w : world) (fuel : nat) :
  forall i,
    match snd (Model.wait_loop w fuel i) with
    | StillPolling =>
        count_connects (fst (Model.wait_loop w fuel i)) = fuel
        /\ count_sleeps (fst (Model.wait_loop w fuel i)) = fuel
    | Halted _ =>
        count_connects (fst (Model.wait_loop w fuel i))
        = S (count_sleeps (fst (Model.wait_loop w fuel i)))
        /\ count_connects (fst (Model.wait_loop w fuel i)) <= fuel
    end.
Proof.
  induction fuel as [| fuel IH]; intros i; [split; reflexivity |].
  cbn [Model.wait_loop].
  destruct (Model.webserver_ready w i) as [t0 r] eqn:Hready.
  assert (Hone : r <> Ok false ->
            count_connects t0 = 1 /\ count_sleeps t0 = 0).
  { unfold Model.webserver_ready in Hready.
    destruct (connect w i) as [e |].
    - destruct (Model.caught e).
      + destruct (retcode w i); injection Hready as <- <-;
          [split; reflexivity | congruence].
      + injection Hready as <- <-. split; reflexivity.
    - injection Hready as <- <-. split; reflexivity. }
  destruct r as [[] | e |].
  - cbn [fst snd]. destruct Hone as [-> ->]; [discriminate | lia].
  - apply webserver_ready_false in Hready as [_ ->].
    specialize (IH (S i)).
    destruct (Model.wait_loop w fuel (S i)) as [t1 p]. cbn [fst snd] in *.
    rewrite count_connects_app, count_sleeps_app.
    change (ESleep 1 :: t1) with ([ESleep 1] ++ t1)%list.
    rewrite count_connects_app, count_sleeps_app.
    change (count_connects [EConnect "127.0.0.1" 8000 1; EPoll]) with 1.
    change (count_sleeps [EConnect "127.0.0.1" 8000 1; EPoll]) with 0.
    change (count_connects [ESleep 1]) with 0.
    change (count_sleeps [ESleep 1]) with 1.
    destruct p; lia.
  - cbn [fst snd]. destruct Hone as [-> ->]; [discriminate | lia].
  - cbn [fst snd]. destruct Hone as [-> ->]; [discriminate | lia].
Qed.

(** Once the launcher is started, the hook sleeps exactly between
    attempts: still polling after [fuel] turns it has made [fuel] attempts
    and slept [fuel] times; halted, it has made one attempt more than it
    slept, whatever made it halt. *)
Theorem enter_accounting (w : world) (fuel : nat) :
  spawn w = None ->
  match snd (Model.__enter__ w fuel) with
  | StillPolling =>
      count_connects (fst (Model.__enter__ w fuel)) = fuel
      /\ count_sleeps (fst (Model.__enter__ w fuel)) = fuel
  | Halted _ =>
      count_connects (fst (Model.__enter__ w fuel))
      = S (count_sleeps (fst (Model.__enter__ w fuel)))
      /\ count_connects (fst (Model.__enter__ w fuel)) <= fuel
  end.
Proof.
  intros Hspawn. rewrite enter_spawned by assumption.
  pose proof (wait_loop_accounting w fuel 0) as Hloop.
  destruct (Model.wait_loop w fuel 0) as [t [[[] | e |] |]];
    cbn [fst snd] in *;
    rewrite ?count_connects_app, ?count_sleeps_app;
    change (count_connects started) with 0;
    change (count_sleeps started) with 0;
    try change (count_connects [EPrint "Webserver ready!"]) with 0;
    try change (count_sleeps [EPrint "Webserver ready!"]) with 0;
    lia.
Qed.

Lemma enter_accounting_example :
  count_connects
    (fst (Model.__enter__ (world_after 2 (Some EMFILE) None) 7))
  = S (count_sleeps
         (fst (Model.__enter__ (world_after 2 (Some EMFILE) None) 7)))
  /\ count_connects
       (fst (Model.__enter__ (world_after 2 (Some EMFILE) None) 7)) <= 7.
Proof.
  exact (enter_accounting (world_after 2 (Some EMFILE) None) 7 eq_refl).
Defined.

(** When the first [k] attempts time out or are refused with the launcher
    alive and attempt [k] connects, the hook returns on attempt [k], after
    [k] sleeps of one second, given the time for it. *)
Theorem enter_ready_at (w : world) (k : nat) :
  spawn w = None ->
  (forall j, j < k -> still_waiting w j = true) ->
  connect w k = None ->
  forall fuel,
    k < fuel ->
    Model.__enter__ w fuel
    = ((started ++ rounds k
          ++ [EConnect "127.0.0.1" 8000 1; EClose;
              EPrint "Webserver ready!"])%list,
       Halted (Ok tt)).
Proof.
  intros Hspawn Hbefore Hconn fuel Hfuel.
  rewrite enter_spawned by assumption.
  replace fuel with (k + S (fuel - S k)) by lia.
  rewrite wait_loop_rounds by assumption.
  cbn [Model.wait_loop Nat.add].
  rewrite webserver_ready_connected by assumption.
  cbn [fst snd]. now rewrite <- !app_assoc.
Qed.

Lemma enter_ready_at_two :
  Model.__enter__ (world_after 2 None None) 3
  = ((started ++ rounds 2
        ++ [EConnect "127.0.0.1" 8000 1; EClose;
            EPrint "Webserver ready!"])%list,
     Halted (Ok tt)).
Proof.
  apply (enter_ready_at (world_after 2 None None) 2);
    try reflexivity; [| lia].
  intros [| [| j]] Hj; [reflexivity | reflexivity | lia].
Defined.

(** A connection attempt that raises anything but a timeout or a refusal
    ends the hook with that exception, unchanged: the launcher is not
    polled on that attempt, whether it has exited or not, and no further
    attempt is made. *)
Theorem enter_uncaught_error (w : world) (k : nat) (e : exn) :
  spawn w = None ->
  (forall j, j < k -> still_waiting w j = true) ->
  connect w k = Some e ->
  Model.caught e = false ->
  forall fuel,
    k < fuel ->
    Model.__enter__ w fuel
    = ((started ++ rounds k ++ [EConnect "127.0.0.1" 8000 1])%list,
       Halted (Raise e)).
Proof.
  intros Hspawn Hbefore Hconn Huncaught fuel Hfuel.
  rewrite enter_spawned by assumption.
  replace fuel with (k + S (fuel - S k)) by lia.
  rewrite wait_loop_rounds by assumption.
  cbn [Model.wait_loop Nat.add].
  rewrite (webserver_ready_uncaught w k e) by assumption.
  reflexivity.
Qed.

Lemma enter_uncaught_error_example :
  Model.__enter__ (world_after 1 (Some EMFILE) (Some 137%Z)) 4
  = ((started ++ rounds 1 ++ [EConnect "127.0.0.1" 8000 1])%list,
     Halted (Raise EMFILE)).
Proof.
  apply (enter_uncaught_error
           (world_after 1 (Some EMFILE) (Some 137%Z)) 1 EMFILE);
    try reflexivity; [| lia].
  intros [| j] Hj; [reflexivity | lia].
Defined.

(** ** The exit code in the error message *)

Lemma to_int_proper (n : Z) :
  Z.to_int n <> Decimal.Pos Decimal.Nil
  /\ Z.to_int n <> Decimal.Neg Decimal.Nil.
Proof.
  destruct n as [| p | p]; cbn; split; try discriminate;
    intros [= H]; now apply (DecimalPos.Unsigned.to_uint_nonnil p).
Qed.

Lemma str_of_int_inj (n1 n2 : Z) :
  str_of_int n1 = str_of_int n2 -> n1 = n2.
Proof.
  unfold str_of_int. intros H.
  apply DecimalZ.to_int_inj.
  destruct (to_int_proper n1) as [Hp1 Hn1].
  destruct (to_int_proper n2) as [Hp2 Hn2].
  pose proof (NilZero.isi _ Hp1 Hn1) as H1.
  pose proof (NilZero.isi _ Hp2 Hn2) as H2.
  rewrite H in H1. congruence.
Qed.

(** Two attempts that find the launcher dead and leave with the same
    error found the same exit code: the message tells the code. *)
Theorem launch_failure_message_tells_code
    (w1 w2 : world) (i1 i2 : nat) (e1 e2 : exn) (N1 N2 : Z) :
  connect w1 i1 = Some e1 -> Model.caught e1 = true ->
  retcode w1 i1 = Some N1 ->
  connect w2 i2 = Some e2 -> Model.caught e2 = true ->
  retcode w2 i2 = Some N2 ->
  snd (Model.webserver_ready w1 i1) = snd (Model.webserver_ready w2 i2) ->
  N1 = N2.
Proof.
  intros Hc1 Hk1 Hr1 Hc2 Hk2 Hr2.
  rewrite (webserver_ready_exited w1 i1 e1 N1) by assumption.
  rewrite (webserver_ready_exited w2 i2 e2 N2) by assumption.
  cbn [snd]. intros [= H].
  now apply str_of_int_inj in H.
Qed.

Lemma launch_failure_message_example : (-15)%Z = (-15)%Z.
Proof.
  apply (launch_failure_message_tells_code
           (world_after 0 (Some SocketTimeout) (Some (-15)%Z))
           (world_after 2 (Some ConnectionRefusedError) (Some (-15)%Z))
           0 2 SocketTimeout ConnectionRefusedError);
    reflexivity.
Defined.

(** ** Streaming as the tokens arrive *)

Lemma yield_tokens_app (a b : list StreamResponse) :
  Model.yield_tokens (a ++ b)%list
  = (Model.yield_tokens a ++ Model.yield_tokens b)%list.
Proof.
  induction a as [| r a IH]; [reflexivity |].
  cbn [app Model.yield_tokens].
  destruct (special (token r)); cbn [app]; congruence.
Qed.

Lemma yielded_app (t u : trace) :
  yielded (t ++ u)%list = (yielded t ++ yielded u)%list.
Proof.
  induction t as [| ev t IH]; [reflexivity |].
  destruct ev; cbn [app yielded]; congruence.
Qed.

(** What the generator has yielded when part of a stream has arrived is
    the beginning of what it yields for the whole stream: a stream that
    goes on where another stopped adds the plain tokens of its further
    responses and changes nothing before them. *)
Theorem generate_stream_incremental
    (short long : Client.t) (question metadata : string)
    (arrived further : list StreamResponse) :
  fst (Client.generate_stream short (filled question metadata) 1024)
  = arrived ->
  fst (Client.generate_stream long (filled question metadata) 1024)
  = (arrived ++ further)%list ->
  yielded (fst (Model.generate_stream long question metadata))
  = (yielded (fst (Model.generate_stream short question metadata))
       ++ map text (filter plain (map token further)))%list.
Proof.
  intros Hshort Hlong. rewrite !generate_stream_unfold. cbv zeta.
  cbn [fst]. rewrite Hshort, Hlong.
  rewrite yield_tokens_app, app_assoc, yielded_app.
  now rewrite yielded_yield_tokens.
Qed.

Lemma generate_stream_incremental_example :
  yielded (fst (Model.generate_stream client_ok "How many?" METADATA_DEFAULT))
  = (yielded
       (fst (Model.generate_stream client_cut "How many?" METADATA_DEFAULT))
       ++ map text
            (filter plain (map token [tok " 1" false; tok "</s>" true])))%list.
Proof.
  apply (generate_stream_incremental client_cut client_ok
           "How many?" METADATA_DEFAULT
           [tok "<s>" true; tok "SELECT" false]);
    reflexivity.
Defined.
